(** * Stealthium example script: a trace model of [example.py]

    The repository consists of one script, [example.py].  It defines six
    example functions that drive a [StealthChrome] browser session and a
    [__main__] block that runs them inside a catch-all handler.  The wrapper
    class and the browser behind it live outside the repository, so every
    interaction with them is an external call whose answer (a returned value
    or a raised exception) is chosen by an environment.

    The script is embedded as a small free monad of external calls and
    outputs.  [try]/[finally], [try]/[except Exception] and [with] are
    combinators whose equations follow the Python reference semantics.  A run
    of a program against an environment yields a result and the trace of
    everything that happened, in order. *)

From Stdlib Require Import List String Ascii ZArith Bool Lia.
Import ListNotations.
Open Scope string_scope.

Set Warnings "-register-all".

(** ** Python values and exceptions *)

(** The values the external library may hand back.  Builtin types are
    concrete; anything else is an opaque object known by its identity. *)
Inductive value : Type :=
| VNone
| VBool (b : bool)
| VInt (n : Z)
| VStr (s : string)
| VList (xs : list value)
| VDict (items : list (string * value))
| VObj (id : nat).

(** Exception classes: the three builtin classes that derive from
    [BaseException] without deriving from [Exception], and everything at or
    below [Exception]. *)
Inductive exc_class : Type :=
| KeyboardInterrupt
| SystemExit
| GeneratorExit
| ExceptionSubclass (name : string).

Record exn : Type := mk_exn { exn_class : exc_class; exn_message : string }.

(** [isinstance(e, Exception)], the test made by [except Exception]. *)
Definition is_Exception (e : exn) : bool :=
  match exn_class e with
  | ExceptionSubclass _ => true
  | _ => false
  end.

Definition TypeError (msg : string) : exn := mk_exn (ExceptionSubclass "TypeError") msg.
Definition ValueError (msg : string) : exn := mk_exn (ExceptionSubclass "ValueError") msg.
Definition KeyError (msg : string) : exn := mk_exn (ExceptionSubclass "KeyError") msg.
Definition AttributeError (msg : string) : exn := mk_exn (ExceptionSubclass "AttributeError") msg.

Inductive outcome : Type :=
| Returned (v : value)
| Raised (e : exn).

Inductive result (A : Type) : Type :=
| Ok (a : A)
| Exc (e : exn).
Arguments Ok {A} a.
Arguments Exc {A} e.

(** ** External calls, outputs and traces *)

(** The external operations the script performs, one constructor per shape of
    call site.  [driver] is the variable bound by [StealthChrome(...)] (or by
    [with ... as driver]); operations written [driver.<name>] are kept apart
    from operations on other library objects ([options], [element], ...). *)
Inductive op : Type :=
| NewDriver (kwargs : list (string * value))              (* StealthChrome(k=v, ...) *)
| DriverCall (d : value) (m : string) (args : list value) (* driver.m(args) *)
| DriverAttr (d : value) (a : string)                     (* driver.a *)
| DriverEnter (d : value)                                 (* with d as ...: d.__enter__() *)
| DriverExit (d : value) (exc : option exn)               (* leaving the with block: d.__exit__(...) *)
| ImportFrom (module name : string)                       (* from module import name *)
| NewOptions                                              (* Options() *)
| ObjCall (o : value) (m : string) (args : list value)    (* o.m(args), o not the driver *)
| ObjAttr (o : value) (a : string)                        (* o.a, o not the driver *)
| Sleep (secs : Z).                                       (* time.sleep(secs) *)

(** An f-string, kept as its literal pieces and the values interpolated. *)
Inductive fpart : Type :=
| Lit (s : string)
| Interp (v : value).

(** What the script writes or signals by itself.  [Enter] and [Caught] are
    bookkeeping marks: control enters a function, control enters the
    [except] clause. *)
Inductive output : Type :=
| Enter (f : string)
| Caught (e : exn)
| Print (line : list fpart)      (* print(f"...") on standard output *)
| PrintExc (e : exn).            (* traceback.print_exc() on standard error *)

Inductive event : Type :=
| Out (o : output)
| Did (c : op) (r : outcome).

Definition trace : Type := list event.

(** ** Programs *)

Inductive prog (A : Type) : Type :=
| Ret (a : A)
| Raise (e : exn)
| Emit (o : output) (k : prog A)
| Call (c : op) (k : outcome -> prog A).
Arguments Ret {A} a.
Arguments Raise {A} e.
Arguments Emit {A} o k.
Arguments Call {A} c k.

Fixpoint bind {A B : Type} (p : prog A) (f : A -> prog B) : prog B :=
  match p with
  | Ret a => f a
  | Raise e => Raise e
  | Emit o k => Emit o (bind k f)
  | Call c k => Call c (fun r => bind (k r) f)
  end.

Declare Scope prog_scope.
Delimit Scope prog_scope with prog.
Notation "x <- p ;; q" := (bind p (fun x => q))
  (at level 100, p at next level, right associativity) : prog_scope.
Notation "p ;; q" := (bind p (fun _ => q))
  (at level 100, right associativity) : prog_scope.
Open Scope prog_scope.

(** A call whose exception, if any, propagates. *)
Definition call (c : op) : prog value :=
  Call c (fun r => match r with
                   | Returned v => Ret v
                   | Raised e => Raise e
                   end).

(** A call made as a statement: the returned value is dropped. *)
Definition exec (c : op) : prog unit :=
  Call c (fun r => match r with
                   | Returned _ => Ret tt
                   | Raised e => Raise e
                   end).

Definition print (line : list fpart) : prog unit := Emit (Print line) (Ret tt).
Definition print_exc (e : exn) : prog unit := Emit (PrintExc e) (Ret tt).

(** [def name body]: a call of the function [name]. *)
Definition def (name : string) (body : prog unit) : prog unit :=
  Emit (Enter name) body.

(** [try: body finally: fin].  The [finally] suite runs on every way out of
    [body]; an exception raised by the suite replaces the pending one. *)
Fixpoint try_finally {A : Type} (body : prog A) (fin : prog unit) : prog A :=
  match body with
  | Ret a => fin ;; Ret a
  | Raise e => fin ;; Raise e
  | Emit o k => Emit o (try_finally k fin)
  | Call c k => Call c (fun r => try_finally (k r) fin)
  end.

(** [try: body except Exception as e: handler e]. *)
Fixpoint try_except_Exception {A : Type} (body : prog A) (handler : exn -> prog A)
  : prog A :=
  match body with
  | Ret a => Ret a
  | Raise e => if is_Exception e then Emit (Caught e) (handler e) else Raise e
  | Emit o k => Emit o (try_except_Exception k handler)
  | Call c k => Call c (fun r => try_except_Exception (k r) handler)
  end.

(** Truth value of what [__exit__] returns (objects without [__bool__] are
    true). *)
Definition truthy (v : value) : bool :=
  match v with
  | VNone => false
  | VBool b => b
  | VInt n => negb (n =? 0)%Z
  | VStr s => negb (s =? "")
  | VList xs => match xs with [] => false | _ => true end
  | VDict items => match items with [] => false | _ => true end
  | VObj _ => true
  end.

(** The block of a [with] statement whose manager is [mgr]: [__exit__] is
    called on every way out of the block, and a true result swallows the
    pending exception. *)
Fixpoint with_block (mgr : value) (body : prog unit) : prog unit :=
  match body with
  | Ret _ => exec (DriverExit mgr None)
  | Raise e =>
      Call (DriverExit mgr (Some e))
           (fun r => match r with
                     | Returned v => if truthy v then Ret tt else Raise e
                     | Raised e' => Raise e'
                     end)
  | Emit o k => Emit o (with_block mgr k)
  | Call c k => Call c (fun r => with_block mgr (k r))
  end.

(** [with mgr_expr as x: body x].  If [__enter__] raises, the block is not
    entered and [__exit__] is not called. *)
Definition with_as (mgr_expr : prog value) (body : value -> prog unit) : prog unit :=
  mgr <- mgr_expr ;;
  Call (DriverEnter mgr)
       (fun r => match r with
                 | Returned x => with_block mgr (body x)
                 | Raised e => Raise e
                 end).

(** ** Builtin operations on returned values *)

Fixpoint dict_lookup (key : string) (items : list (string * value)) : option value :=
  match items with
  | [] => None
  | (k, v) :: rest => if k =? key then Some v else dict_lookup key rest
  end.

Definition type_name (v : value) : string :=
  match v with
  | VNone => "NoneType"
  | VBool _ => "bool"
  | VInt _ => "int"
  | VStr _ => "str"
  | VList _ => "list"
  | VDict _ => "dict"
  | VObj _ => "object"
  end.

(** What [len] makes of the value returned by [__len__]. *)
Definition as_len (n : value) : prog value :=
  match n with
  | VInt z => if (z <? 0)%Z then Raise (ValueError "__len__() should return >= 0")
              else Ret (VInt z)
  | VBool b => Ret (VInt (Z.b2z b))
  | _ => Raise (TypeError ("'" ++ type_name n ++ "' object cannot be interpreted as an integer"))
  end.

(** [len(v)] *)
Definition py_len (v : value) : prog value :=
  match v with
  | VStr s => Ret (VInt (Z.of_nat (String.length s)))
  | VList xs => Ret (VInt (Z.of_nat (List.length xs)))
  | VDict items => Ret (VInt (Z.of_nat (List.length items)))
  | VObj _ => n <- call (ObjCall v "__len__" []) ;; as_len n
  | _ => Raise (TypeError ("object of type '" ++ type_name v ++ "' has no len()"))
  end.

(** [v[key]] for a string key *)
Definition py_getitem (v : value) (key : string) : prog value :=
  match v with
  | VDict items =>
      match dict_lookup key items with
      | Some x => Ret x
      | None => Raise (KeyError ("'" ++ key ++ "'"))
      end
  | VObj _ => call (ObjCall v "__getitem__" [VStr key])
  | VStr _ => Raise (TypeError "string indices must be integers")
  | VList _ => Raise (TypeError "list indices must be integers or slices, not str")
  | _ => Raise (TypeError ("'" ++ type_name v ++ "' object is not subscriptable"))
  end.

(** [v.get(key, default)] *)
Definition py_get (v : value) (key : string) (default : value) : prog value :=
  match v with
  | VDict items =>
      match dict_lookup key items with
      | Some x => Ret x
      | None => Ret default
      end
  | VObj _ => call (ObjCall v "get" [VStr key; default])
  | _ => Raise (AttributeError ("'" ++ type_name v ++ "' object has no attribute 'get'"))
  end.

(** [v.a] *)
Definition py_getattr (v : value) (a : string) : prog value :=
  match v with
  | VObj _ => call (ObjAttr v a)
  | _ => Raise (AttributeError ("'" ++ type_name v ++ "' object has no attribute '" ++ a ++ "'"))
  end.

(** ** Running a program *)

(** The environment answers each call, knowing everything that happened
    before it. *)
Definition env : Type := trace -> op -> outcome.

Fixpoint run {A : Type} (p : prog A) (E : env) (h : trace) : result A * trace :=
  match p with
  | Ret a => (Ok a, h)
  | Raise e => (Exc e, h)
  | Emit o k => run k E (h ++ [Out o])%list
  | Call c k => run (k (E h c)) E (h ++ [Did c (E h c)])%list
  end.

Definition result_of {A : Type} (p : prog A) (E : env) : result A := fst (run p E []).
Definition trace_of {A : Type} (p : prog A) (E : env) : trace := snd (run p E []).

(** ** The script *)

Definition nl : string := String (ascii_of_nat 10) "".

(** [example_basic_usage], lines 18-36. *)
Definition example_basic_usage : prog unit :=
  def "example_basic_usage"
    (print [Lit (nl ++ "=== Example 1: Basic Usage (Just like Selenium) ===")] ;;
     driver <- call (NewDriver [("headless", VBool true)]) ;;
     try_finally
       (exec (DriverCall driver "get" [VStr "https://example.com"]) ;;
        title <- call (DriverAttr driver "title") ;;
        print [Lit "Page Title: "; Interp title] ;;
        url <- call (DriverAttr driver "current_url") ;;
        print [Lit "Page URL: "; Interp url] ;;
        element <- call (DriverCall driver "find_element" [VStr "tag name"; VStr "h1"]) ;;
        text <- py_getattr element "text" ;;
        print [Lit "Found element: "; Interp text])
       (exec (DriverCall driver "quit" []))).

(** [example_with_headers], lines 39-54. *)
Definition example_with_headers : prog unit :=
  def "example_with_headers"
    (print [Lit (nl ++ "=== Example 2: Extract Headers ===")] ;;
     driver <- call (NewDriver [("headless", VBool true)]) ;;
     try_finally
       (exec (DriverCall driver "get" [VStr "https://httpbin.org/headers"]) ;;
        headers <- call (DriverCall driver "get_headers" []) ;;
        ua <- py_get headers "user-agent" (VStr "Not found") ;;
        print [Lit "User-Agent: "; Interp ua] ;;
        accept <- py_get headers "accept" (VStr "Not found") ;;
        print [Lit "Accept: "; Interp accept])
       (exec (DriverCall driver "quit" []))).

(** [example_with_proxy], lines 57-77: everything between the heading and the
    closing notice is commented out in the source. *)
Definition example_with_proxy : prog unit :=
  def "example_with_proxy"
    (print [Lit (nl ++ "=== Example 3: Using Proxy ===")] ;;
     print [Lit "(Proxy example commented out - add your proxy details to test)"]).

(** [example_selenium_compatibility], lines 80-106. *)
Definition example_selenium_compatibility : prog unit :=
  def "example_selenium_compatibility"
    (print [Lit (nl ++ "=== Example 4: Full Selenium Compatibility ===")] ;;
     driver <- call (NewDriver [("headless", VBool true)]) ;;
     try_finally
       (exec (DriverCall driver "get" [VStr "https://example.com"]) ;;
        url <- call (DriverAttr driver "current_url") ;;
        print [Lit "Current URL: "; Interp url] ;;
        source <- call (DriverAttr driver "page_source") ;;
        n <- py_len source ;;
        print [Lit "Page Source Length: "; Interp n] ;;
        elements <- call (DriverCall driver "find_elements" [VStr "tag name"; VStr "p"]) ;;
        n <- py_len elements ;;
        print [Lit "Found "; Interp n; Lit " paragraph elements"] ;;
        result <- call (DriverCall driver "execute_script" [VStr "return document.title;"]) ;;
        print [Lit "Title via JavaScript: "; Interp result] ;;
        cookies <- call (DriverCall driver "get_cookies" []) ;;
        n <- py_len cookies ;;
        print [Lit "Cookies: "; Interp n; Lit " found"])
       (exec (DriverCall driver "quit" []))).

(** [example_context_manager], lines 109-117. *)
Definition example_context_manager : prog unit :=
  def "example_context_manager"
    (print [Lit (nl ++ "=== Example 5: Context Manager ===")] ;;
     with_as (call (NewDriver [("headless", VBool true)]))
       (fun driver =>
          exec (DriverCall driver "get" [VStr "https://example.com"]) ;;
          title <- call (DriverAttr driver "title") ;;
          print [Lit "Page Title: "; Interp title])).

(** [example_custom_options], lines 120-140.  [import time] binds a module of
    the standard library and is not traced. *)
Definition example_custom_options : prog unit :=
  def "example_custom_options"
    (print [Lit (nl ++ "=== Example 6: Custom Options ===")] ;;
     exec (ImportFrom "selenium.webdriver.chrome.options" "Options") ;;
     options <- call NewOptions ;;
     exec (ObjCall options "add_argument" [VStr "--window-size=1920,1080"]) ;;
     driver <- call (NewDriver [("options", options);
                                ("headless", VBool false);
                                ("incognito", VBool true)]) ;;
     try_finally
       (exec (DriverCall driver "get" [VStr "https://google.com"]) ;;
        size <- call (DriverCall driver "get_window_size" []) ;;
        width <- py_getitem size "width" ;;
        height <- py_getitem size "height" ;;
        print [Lit "Window Size: "; Interp width; Lit "x"; Interp height] ;;
        exec (Sleep 60))
       (exec (DriverCall driver "quit" []))).

(** The six functions the script defines, in source order. *)
Definition examples : list (string * prog unit) :=
  [ ("example_basic_usage", example_basic_usage);
    ("example_with_headers", example_with_headers);
    ("example_with_proxy", example_with_proxy);
    ("example_selenium_compatibility", example_selenium_compatibility);
    ("example_context_manager", example_context_manager);
    ("example_custom_options", example_custom_options) ].

(** The [try] suite of the [__main__] block, lines 146-156.  Five of the six
    calls are commented out in the source. *)
Definition main_body : prog unit :=
  example_custom_options ;;
  print [Lit (nl ++ "✅ All examples completed!")] ;;
  print [Lit (nl ++ "StealthChrome works exactly like webdriver.Chrome!")] ;;
  print [Lit "Just replace 'webdriver.Chrome()' with 'StealthChrome()'"].

(** The [except Exception as e] suite, lines 158-161.  [import traceback]
    binds a module of the standard library and is not traced. *)
Definition handler (e : exn) : prog unit :=
  print [Lit (nl ++ "❌ Error: "); Interp (VStr (exn_message e))] ;;
  print_exc e.

Definition main_block : prog unit := try_except_Exception main_body handler.

(** The module from the [if __name__ == "__main__":] guard on.  What precedes
    the guard (two imports, the logging configuration and the six [def]s)
    only binds names. *)
Definition script (name : string) : prog unit :=
  if name =? "__main__" then main_block else Ret tt.

(** ** Environments used as concrete inputs *)

(** A browser in which every call succeeds. *)
Definition env_ok : env := fun _ c =>
  match c with
  | NewDriver _ => Returned (VObj 1)
  | DriverAttr _ "title" => Returned (VStr "Example Domain")
  | DriverAttr _ "current_url" => Returned (VStr "https://example.com/")
  | DriverAttr _ "page_source" => Returned (VStr "<html></html>")
  | DriverCall _ "find_element" _ => Returned (VObj 2)
  | DriverCall _ "find_elements" _ => Returned (VList [VObj 2; VObj 3])
  | DriverCall _ "execute_script" _ => Returned (VStr "Example Domain")
  | DriverCall _ "get_cookies" _ => Returned (VList [])
  | DriverCall _ "get_headers" _ => Returned (VDict [("user-agent", VStr "Mozilla/5.0")])
  | DriverCall _ "get_window_size" _ =>
      Returned (VDict [("width", VInt 1920); ("height", VInt 1080)])
  | DriverEnter d => Returned d
  | NewOptions => Returned (VObj 0)
  | ObjAttr _ "text" => Returned (VStr "Example Domain")
  | _ => Returned VNone
  end.

(** The same browser with the page unreachable: navigation raises. *)
Definition env_offline : env := fun h c =>
  match c with
  | DriverCall _ "get" _ =>
      Raised (mk_exn (ExceptionSubclass "WebDriverException") "net::ERR_NAME_NOT_RESOLVED")
  | _ => env_ok h c
  end.

(** The same browser with the user pressing Ctrl-C during [time.sleep]. *)
Definition env_ctrl_c : env := fun h c =>
  match c with
  | Sleep _ => Raised (mk_exn KeyboardInterrupt "")
  | _ => env_ok h c
  end.

(** ** Observations on traces *)

Fixpoint pick {A B : Type} (f : A -> option B) (l : list A) : list B :=
  match l with
  | [] => []
  | a :: rest =>
      match f a with
      | Some b => b :: pick f rest
      | None => pick f rest
      end
  end.

(** The function entered, for an [Enter] mark. *)
Definition entered (ev : event) : option string :=
  match ev with
  | Out (Enter f) => Some f
  | _ => None
  end.

Definition entries (t : trace) : list string := pick entered t.

(** The session created, for a constructor call that returned. *)
Definition new_session (ev : event) : option value :=
  match ev with
  | Did (NewDriver _) (Returned d) => Some d
  | _ => None
  end.

(** The session released, for a [quit()] call or an [__exit__] call. *)
Definition release_of (ev : event) : option value :=
  match ev with
  | Did (DriverCall d "quit" []) _ => Some d
  | Did (DriverExit d _) _ => Some d
  | _ => None
  end.


Definition sessions (t : trace) : list value := pick new_session t.
Definition released (t : trace) : list value := pick release_of t.


(** ** Reasoning along every path of a program *)

(** [always P p h]: whatever the environment answers, running [p] after
    history [h] ends in a result and a trace that satisfy [P]. *)
Fixpoint always {A : Type} (P : result A -> trace -> Prop) (p : prog A) (h : trace)
  : Prop :=
  match p with
  | Ret a => P (Ok a) h
  | Raise e => P (Exc e) h
  | Emit o k => always P k (h ++ [Out o])%list
  | Call c k => forall r, always P (k r) (h ++ [Did c r])%list
  end.

Lemma always_sound {A : Type} (P : result A -> trace -> Prop) (p : prog A) :
  forall h, always P p h -> forall E, P (fst (run p E h)) (snd (run p E h)).
Proof.
  induction p as [a | e | o k IH | c k IH]; simpl; intros h Hp E; auto.
Qed.

(** The builtin operations have few shapes; these lemmas let a proof follow
    them without looking into the value. *)
Lemma as_len_cases (n : value) :
  (exists m, as_len n = Ret m) \/ (exists e, as_len n = Raise e).
Proof.
  destruct n; simpl; eauto.
  destruct (n <? 0)%Z; eauto.
Qed.

Lemma py_len_cases (v : value) :
  (exists n, py_len v = Ret n) \/
  (exists e, py_len v = Raise e) \/
  py_len v = (n <- call (ObjCall v "__len__" []) ;; as_len n).
Proof.
  destruct v; simpl; eauto.
Qed.

Lemma py_getitem_cases (v : value) (key : string) :
  (exists x, py_getitem v key = Ret x) \/
  (exists e, py_getitem v key = Raise e) \/
  py_getitem v key = call (ObjCall v "__getitem__" [VStr key]).
Proof.
  destruct v; simpl; eauto.
  destruct (dict_lookup key items); eauto.
Qed.

Lemma py_get_cases (v : value) (key : string) (default : value) :
  (exists x, py_get v key default = Ret x) \/
  (exists e, py_get v key default = Raise e) \/
  py_get v key default = call (ObjCall v "get" [VStr key; default]).
Proof.
  destruct v; simpl; eauto.
  destruct (dict_lookup key items); eauto.
Qed.

Lemma py_getattr_cases (v : value) (a : string) :
  (exists e, py_getattr v a = Raise e) \/ py_getattr v a = call (ObjAttr v a).
Proof.
  destruct v; simpl; eauto.
Qed.

Create HintDb script.
#[local] Hint Unfold example_basic_usage example_with_headers example_with_proxy
  example_selenium_compatibility example_context_manager example_custom_options
  main_body main_block handler def print print_exc exec call with_as : script.

(** One step along the paths of the program in the goal. *)
Ltac path_step :=
  match goal with
  | |- forall r : outcome, _ => intros [?v | ?e]
  | |- context [py_len ?v] =>
      destruct (py_len_cases v) as [[? ->] | [[? ->] | ->]]
  | |- context [as_len ?v] =>
      destruct (as_len_cases v) as [[? ->] | [? ->]]
  | |- context [py_getitem ?v ?k] =>
      destruct (py_getitem_cases v k) as [[? ->] | [[? ->] | ->]]
  | |- context [py_get ?v ?k ?d] =>
      destruct (py_get_cases v k d) as [[? ->] | [[? ->] | ->]]
  | |- context [py_getattr ?v ?a] =>
      destruct (py_getattr_cases v a) as [[? ->] | ->]
  | |- context [truthy ?v] => destruct (truthy v)
  | |- context [is_Exception ?e] => destruct (is_Exception e) eqn:?
  end.

Ltac explore := autounfold with script; cbn; repeat (path_step; autounfold with script; cbn).

(** Leaves whose trace is explicit: finish by computation. *)
Ltac close_leaf :=
  cbn; repeat split; intros; try discriminate; try reflexivity; eauto.



(** ** C1: every acquired session is released exactly once *)




(** ** C2: the top-level handler *)






(** ** C3: the proxy example *)

Definition has_key (key : string) (kwargs : list (string * value)) : bool :=
  match dict_lookup key kwargs with
  | Some _ => true
  | None => false
  end.

(** A constructor call that passes proxy host, port and credentials. *)
Definition constructs_with_proxy (ev : event) : bool :=
  match ev with
  | Did (NewDriver kwargs) _ =>
      has_key "proxy_host" kwargs && has_key "proxy_port" kwargs &&
      has_key "proxy_user" kwargs && has_key "proxy_password" kwargs
  | _ => false
  end.

Definition navigates (ev : event) : bool :=
  match ev with
  | Did (DriverCall _ "get" _) _ => true
  | _ => false
  end.

(** C3, as stated, fails: with every call succeeding, a call of
    [example_with_proxy] constructs no driver at all, with or without proxy
    settings, and navigates nowhere. *)
Lemma proxy_example_constructs_nothing :
  existsb constructs_with_proxy (trace_of example_with_proxy env_ok) = false /\
  sessions (trace_of example_with_proxy env_ok) = [] /\
  existsb navigates (trace_of example_with_proxy env_ok) = false.
Proof.
  repeat split; reflexivity.
Qed.

(** C3, amended.  The proxy call site exists only as comments.  When invoked,
    [example_with_proxy] prints its heading and the notice that the proxy
    example is commented out, and returns: it makes no external call, so it
    constructs no driver and performs no navigation. *)
Theorem proxy_example_only_prints :
  forall E : env,
    run example_with_proxy E [] =
      (Ok tt,
       [ Out (Enter "example_with_proxy");
         Out (Print [Lit (nl ++ "=== Example 3: Using Proxy ===")]);
         Out (Print [Lit "(Proxy example commented out - add your proxy details to test)"]) ]).
Proof.
  intros E. reflexivity.
Qed.

(** ** C9: what a run as [__main__] executes *)



(** ** Statements about positions in a trace *)

(** [at_each P before t]: every event of [t], together with the events
    before it and the events after it, satisfies [P]. *)
Fixpoint at_each (P : trace -> event -> trace -> Prop) (before t : trace) : Prop :=
  match t with
  | [] => True
  | ev :: after => P before ev after /\ at_each P (before ++ [ev])%list after
  end.

Lemma at_each_from (P : trace -> event -> trace -> Prop) (t1 : trace) :
  forall (before t : trace) (ev : event) (t2 : trace),
    at_each P before t ->
    t = (t1 ++ ev :: t2)%list ->
    P (before ++ t1)%list ev t2.
Proof.
  induction t1 as [ | x t1 IH]; intros before t ev t2 Hall ->; simpl in Hall.
  - rewrite app_nil_r. tauto.
  - destruct Hall as [_ Hall].
    specialize (IH _ _ ev t2 Hall eq_refl).
    now rewrite <- app_assoc in IH.
Qed.

Lemma at_each_split (P : trace -> event -> trace -> Prop) (t : trace) :
  at_each P [] t ->
  forall (t1 : trace) (ev : event) (t2 : trace),
    t = (t1 ++ ev :: t2)%list -> P t1 ev t2.
Proof.
  intros Hall t1 ev t2 Ht.
  exact (at_each_from P t1 [] t ev t2 Hall Ht).
Qed.

(** ** C5: no retry *)

(** The operation performed on or for a driver, if the event is one. *)
Definition driver_op (ev : event) : option op :=
  match ev with
  | Did (NewDriver kw) _ => Some (NewDriver kw)
  | Did (DriverCall d m args) _ => Some (DriverCall d m args)
  | Did (DriverAttr d a) _ => Some (DriverAttr d a)
  | Did (DriverEnter d) _ => Some (DriverEnter d)
  | Did (DriverExit d exc) _ => Some (DriverExit d exc)
  | _ => None
  end.

Definition driver_ops (t : trace) : list op := pick driver_op t.

Definition quiet_once_caught : trace -> event -> trace -> Prop :=
  fun _ ev after =>
    match ev with
    | Out (Caught _) => entries after = [] /\ driver_ops after = []
    | _ => True
    end.

Lemma main_block_entries (E : env) :
  entries (trace_of main_block E) = ["example_custom_options"].
Proof.
  unfold trace_of.
  apply (always_sound (fun _ t => entries t = ["example_custom_options"])).
  explore; reflexivity.
Qed.

Lemma main_block_quiet_once_caught (E : env) :
  at_each quiet_once_caught [] (trace_of main_block E).
Proof.
  unfold trace_of.
  apply (always_sound (fun _ t => at_each quiet_once_caught [] t)).
  explore; close_leaf.
Qed.

(** C5.  In any run of the script no example function is entered twice, and
    once the top-level handler has caught an exception nothing that follows
    is the entry of an example function or an operation on a driver. *)
Theorem no_retry_after_catch :
  forall (name : string) (E : env),
    NoDup (entries (trace_of (script name) E)) /\
    forall (t1 : trace) (e : exn) (t2 : trace),
      trace_of (script name) E = (t1 ++ Out (Caught e) :: t2)%list ->
      entries t2 = [] /\ driver_ops t2 = [].
Proof.
  intros name E. unfold script.
  destruct (name =? "__main__").
  - split.
    + rewrite main_block_entries. constructor; [intros [] | constructor].
    + intros t1 e t2 Ht.
      exact (at_each_split quiet_once_caught _ (main_block_quiet_once_caught E) t1 _ t2 Ht).
  - split; [constructor | ].
    intros t1 e t2 Ht. cbn in Ht. now destruct t1.
Qed.

Lemma no_retry_after_catch_witness :
  trace_of (script "__main__") env_offline =
    (firstn 8 (trace_of (script "__main__") env_offline) ++
     Out (Caught (mk_exn (ExceptionSubclass "WebDriverException") "net::ERR_NAME_NOT_RESOLVED"))
     :: skipn 9 (trace_of (script "__main__") env_offline))%list /\
  entries (skipn 9 (trace_of (script "__main__") env_offline)) = [] /\
  driver_ops (skipn 9 (trace_of (script "__main__") env_offline)) = [].
Proof.
  split; [reflexivity | ].
  apply (proj2 (no_retry_after_catch "__main__" env_offline)
           (firstn 8 (trace_of (script "__main__") env_offline))
           (mk_exn (ExceptionSubclass "WebDriverException") "net::ERR_NAME_NOT_RESOLVED")).
  reflexivity.
Defined.

(** ** C6: construct, call, print, release *)

(** The object an operation is directed at, for the operations performed on
    an existing driver object. *)
Definition driver_target (ev : event) : option value :=
  match ev with
  | Did (DriverCall d _ _) _ => Some d
  | Did (DriverAttr d _) _ => Some d
  | Did (DriverEnter d) _ => Some d
  | Did (DriverExit d _) _ => Some d
  | _ => None
  end.



Definition is_release (ev : event) : bool :=
  match release_of ev with
  | Some _ => true
  | None => false
  end.












(** ** C8: the driver members the script uses *)

(** The members of §6 of the specification, by their names in the script. *)
Definition recorded_interface : list string :=
  [ "get"; "title"; "current_url"; "page_source"; "find_element"; "find_elements";
    "execute_script"; "get_cookies"; "get_window_size"; "quit"; "get_headers" ].

(** The member named in [driver.<name>], for a method call or a property
    read on a driver. *)
Definition driver_member (ev : event) : option string :=
  match ev with
  | Did (DriverCall _ m _) _ => Some m
  | Did (DriverAttr _ a) _ => Some a
  | _ => None
  end.

Definition driver_members (t : trace) : list string := pick driver_member t.

(** The calls a [with] statement makes by itself on its manager. *)
Definition with_protocol (ev : event) : bool :=
  match ev with
  | Did (DriverEnter _) _ => true
  | Did (DriverExit _ _) _ => true
  | _ => false
  end.

Definition recorded (m : string) : bool := existsb (String.eqb m) recorded_interface.

Lemma recorded_In (m : string) : recorded m = true -> In m recorded_interface.
Proof.
  unfold recorded. rewrite existsb_exists.
  intros [x [Hx Heq]]. apply String.eqb_eq in Heq. now subst.
Qed.

Definition within_interface (name : string) (t : trace) : Prop :=
  forallb recorded (driver_members t) = true /\
  (existsb with_protocol t = true -> name = "example_context_manager").

Lemma examples_within_interface (name : string) (p : prog unit) (E : env) :
  In (name, p) examples -> within_interface name (trace_of p E).
Proof.
  intros Hin. unfold trace_of.
  apply (always_sound (fun _ => within_interface name)).
  simpl in Hin.
  repeat (destruct Hin as [Hin | Hin]; [injection Hin as <- <- | ]);
    try contradiction;
    explore; unfold within_interface; close_leaf.
Qed.

(** C8.  In every run of every example function, each member named on a
    driver instance, method or property, is one of [get], [title],
    [current_url], [page_source], [find_element], [find_elements],
    [execute_script], [get_cookies], [get_window_size], [quit] and
    [get_headers].  Nothing else is done to a driver, apart from the
    [__enter__] and [__exit__] that the [with] statement of
    [example_context_manager] performs by itself (the scoped use that §6
    records separately). *)
Theorem only_recorded_driver_members :
  forall (name : string) (p : prog unit),
    In (name, p) examples ->
    forall E : env,
      (forall m : string, In m (driver_members (trace_of p E)) -> In m recorded_interface) /\
      (forall ev : event,
         In ev (trace_of p E) ->
         driver_target ev <> None ->
         driver_member ev <> None \/
         (with_protocol ev = true /\ name = "example_context_manager")).
Proof.
  intros name p Hin E.
  destruct (examples_within_interface name p E Hin) as [Hall Hwith].
  split.
  - intros m Hm. apply recorded_In.
    rewrite forallb_forall in Hall. now apply Hall.
  - intros ev Hev Htarget.
    destruct ev as [o | c r]; [now elim Htarget | ].
    destruct c; simpl in Htarget; try (now elim Htarget);
      try (left; discriminate);
      right; (split; [reflexivity | ]);
      apply Hwith; apply existsb_exists; eexists; (split; [exact Hev | reflexivity]).
Qed.

Lemma only_recorded_driver_members_witness :
  In ("example_custom_options", example_custom_options) examples /\
  In "get_window_size" (driver_members (trace_of example_custom_options env_ok)) /\
  In "get_window_size" recorded_interface.
Proof.
  assert (Hin : In ("example_custom_options", example_custom_options) examples)
    by (simpl; tauto).
  assert (Hm : In "get_window_size" (driver_members (trace_of example_custom_options env_ok)))
    by (cbn; tauto).
  split; [exact Hin | split; [exact Hm | ]].
  exact (proj1 (only_recorded_driver_members _ _ Hin env_ok) "get_window_size" Hm).
Defined.

(** ** C7: the script is a deterministic sequential program *)



Definition printed (t : trace) : list (list fpart) :=
  pick (fun ev => match ev with Out (Print line) => Some line | _ => None end) t.





(** ** C4 and C10: the header example *)



(** What [driver.get_headers()] returned. *)
Definition headers_returned (t : trace) : list value :=
  pick (fun ev => match ev with
                  | Did (DriverCall _ "get_headers" []) (Returned v) => Some v
                  | _ => None
                  end) t.

Definition navigated (ev : event) : bool :=
  match ev with
  | Did (DriverCall _ "get" _) (Returned _) => true
  | _ => false
  end.


(** The exception with which [quit()] ended, if it raised. *)
Definition quit_raised (t : trace) : list exn :=
  pick (fun ev => match ev with
                  | Did (DriverCall _ "quit" []) (Raised e) => Some e
                  | _ => None
                  end) t.


(** One step along the paths of the header example, looking into the value
    that [get_headers()] returned. *)
Ltac value_step :=
  match goal with
  | |- forall r : outcome, _ => intros [?v | ?e]
  | |- context [match ?v with VNone => _ | _ => _ end] => is_var v; destruct v
  | |- context [dict_lookup ?k ?i] => destruct (dict_lookup k i) eqn:?
  end.

Ltac explore_values :=
  autounfold with script; cbn;
  repeat (value_step; autounfold with script; unfold py_get; cbn).




Definition defaults_when_missing (r : result unit) (t : trace) : Prop :=
  forall items,
    headers_returned t = [VDict items] ->
    (dict_lookup "user-agent" items = None ->
     In [Lit "User-Agent: "; Interp (VStr "Not found")] (printed t)) /\
    (dict_lookup "accept" items = None ->
     In [Lit "Accept: "; Interp (VStr "Not found")] (printed t)) /\
    (forall e, r = Exc e -> quit_raised t = [e]).

(** C10.  In every run of the header example in which [get_headers()]
    returned a dict: if the dict lacks the key ['user-agent'], the line
    [User-Agent: Not found] is printed; if it lacks ['accept'], the line
    [Accept: Not found] is printed; and the lookups raise nothing, so the
    example ends with an exception only if [quit()] raised it. *)
Theorem missing_header_prints_not_found :
  forall (E : env) (items : list (string * value)),
    headers_returned (trace_of example_with_headers E) = [VDict items] ->
    (dict_lookup "user-agent" items = None ->
     In [Lit "User-Agent: "; Interp (VStr "Not found")]
        (printed (trace_of example_with_headers E))) /\
    (dict_lookup "accept" items = None ->
     In [Lit "Accept: "; Interp (VStr "Not found")]
        (printed (trace_of example_with_headers E))) /\
    (forall e, result_of example_with_headers E = Exc e ->
               quit_raised (trace_of example_with_headers E) = [e]).
Proof.
  intros E. unfold trace_of, result_of.
  apply (always_sound defaults_when_missing).
  explore_values; unfold defaults_when_missing; cbn;
    intros ? [= <-]; repeat split; intros;
    try congruence; simpl; tauto.
Qed.

(** A browser whose [get_headers()] returns a mapping without the two keys. *)
Definition env_no_headers : env := fun h c =>
  match c with
  | DriverCall _ "get_headers" _ => Returned (VDict [("host", VStr "httpbin.org")])
  | _ => env_ok h c
  end.

Lemma missing_header_prints_not_found_witness :
  headers_returned (trace_of example_with_headers env_no_headers) =
    [VDict [("host", VStr "httpbin.org")]] /\
  dict_lookup "user-agent" [("host", VStr "httpbin.org")] = None /\
  In [Lit "User-Agent: "; Interp (VStr "Not found")]
     (printed (trace_of example_with_headers env_no_headers)).
Proof.
  split; [reflexivity | split; [reflexivity | ]].
  apply (missing_header_prints_not_found env_no_headers [("host", VStr "httpbin.org")]);
    reflexivity.
Defined.

(** * Further properties of the example functions *)

(** ** Observations used below *)

(** The calls that raised, with the exception each raised, in order. *)
Definition raised_calls (t : trace) : list (op * exn) :=
  pick (fun ev => match ev with
                  | Did c (Raised e) => Some (c, e)
                  | _ => None
                  end) t.

(** The exceptions the top-level handler caught. *)
Definition caught (t : trace) : list exn :=
  pick (fun ev => match ev with
                  | Out (Caught e) => Some e
                  | _ => None
                  end) t.

(** The durations passed to [time.sleep]. *)
Definition sleeps (t : trace) : list Z :=
  pick (fun ev => match ev with
                  | Did (Sleep secs) _ => Some secs
                  | _ => None
                  end) t.

(** ** Failure inside an example function *)

(** After a library call has raised, an example does nothing but release. *)
Definition stops_after_failure : trace -> event -> trace -> Prop :=
  fun _ ev after =>
    match ev with
    | Did _ (Raised _) =>
        match after with
        | [] => True
        | [rel] => is_release rel = true
        | _ => False
        end
    | _ => True
    end.

(** A driver member other than [get] and [quit] is used only on a driver
    whose navigation has returned. *)
Definition reads_after_navigation : trace -> event -> trace -> Prop :=
  fun before ev _ =>
    forall m, driver_member ev = Some m ->
              m <> "get" -> m <> "quit" ->
              existsb navigated before = true.

(** In the examples that release with [quit()] in a [finally] suite: the
    exception of a failing [quit()] is the one the function ends with, and
    the function returns normally only if no library call raised. *)
Definition quit_decides (r : result unit) (t : trace) : Prop :=
  (forall e, quit_raised t = [e] -> r = Exc e) /\
  (r = Ok tt -> raised_calls t = []).

Definition example_paths (name : string) (r : result unit) (t : trace) : Prop :=
  at_each stops_after_failure [] t /\
  at_each reads_after_navigation [] t /\
  (name <> "example_context_manager" -> quit_decides r t).

Ltac close_path_leaf :=
  unfold example_paths, stops_after_failure, reads_after_navigation, quit_decides;
  cbn; repeat split; intros;
  repeat match goal with
         | H : Some _ = Some _ |- _ => injection H as <-
         | H : [_] = [_] |- _ => injection H as <-
         end;
  try discriminate; try congruence; try reflexivity; eauto.

Lemma examples_paths (name : string) (p : prog unit) (E : env) :
  In (name, p) examples ->
  example_paths name (fst (run p E [])) (snd (run p E [])).
Proof.
  intros Hin.
  apply (always_sound (example_paths name)).
  simpl in Hin.
  repeat (destruct Hin as [Hin | Hin]; [injection Hin as <- <- | ]);
    try contradiction;
    explore; close_path_leaf.
Qed.

(** X1.  An example function stops at the first library call that raises:
    whatever follows that call in its trace is at most one event, the
    release of the session ([quit()] or [__exit__]).  In particular nothing
    is printed and no call is repeated after a failure. *)
Theorem example_stops_at_first_failure :
  forall (name : string) (p : prog unit),
    In (name, p) examples ->
    forall (E : env) (t1 : trace) (c : op) (e : exn) (t2 : trace),
      trace_of p E = (t1 ++ Did c (Raised e) :: t2)%list ->
      t2 = [] \/ exists rel, t2 = [rel] /\ is_release rel = true.
Proof.
  intros name p Hin E t1 c e t2 Ht.
  destruct (examples_paths name p E Hin) as [Hstop _].
  pose proof (at_each_split stops_after_failure _ Hstop t1 _ t2 Ht) as H.
  simpl in H.
  destruct t2 as [ | rel [ | x t2]]; [now left | right; eauto | contradiction].
Qed.

Lemma example_stops_at_first_failure_witness :
  In ("example_custom_options", example_custom_options) examples /\
  trace_of example_custom_options env_ctrl_c =
    (firstn 9 (trace_of example_custom_options env_ctrl_c) ++
     Did (Sleep 60) (Raised (mk_exn KeyboardInterrupt ""))
     :: [Did (DriverCall (VObj 1) "quit" []) (Returned VNone)])%list /\
  ([Did (DriverCall (VObj 1) "quit" []) (Returned VNone)] = [] \/
   exists rel, [Did (DriverCall (VObj 1) "quit" []) (Returned VNone)] = [rel] /\
               is_release rel = true).
Proof.
  assert (Hin : In ("example_custom_options", example_custom_options) examples)
    by (simpl; tauto).
  split; [exact Hin | split; [reflexivity | ]].
  apply (example_stops_at_first_failure _ _ Hin env_ctrl_c
           (firstn 9 (trace_of example_custom_options env_ctrl_c))
           (Sleep 60) (mk_exn KeyboardInterrupt "")).
  reflexivity.
Defined.

(** X2.  In every example function a driver member other than [get] and
    [quit] (title, current_url, page_source, find_element(s),
    execute_script, get_cookies, get_headers, get_window_size) is used only
    after a navigation [driver.get(url)] has returned: nothing is read from
    a browser that failed to load its page. *)
Theorem reads_only_after_navigation :
  forall (name : string) (p : prog unit),
    In (name, p) examples ->
    forall (E : env) (t1 : trace) (ev : event) (t2 : trace) (m : string),
      trace_of p E = (t1 ++ ev :: t2)%list ->
      driver_member ev = Some m ->
      m <> "get" -> m <> "quit" ->
      existsb navigated t1 = true.
Proof.
  intros name p Hin E t1 ev t2 m Ht Hm Hget Hquit.
  destruct (examples_paths name p E Hin) as [_ [Hnav _]].
  exact (at_each_split reads_after_navigation _ Hnav t1 ev t2 Ht m Hm Hget Hquit).
Qed.

Lemma reads_only_after_navigation_witness :
  In ("example_context_manager", example_context_manager) examples /\
  trace_of example_context_manager env_ok =
    (firstn 5 (trace_of example_context_manager env_ok) ++
     Did (DriverAttr (VObj 1) "title") (Returned (VStr "Example Domain"))
     :: skipn 6 (trace_of example_context_manager env_ok))%list /\
  existsb navigated (firstn 5 (trace_of example_context_manager env_ok)) = true.
Proof.
  assert (Hin : In ("example_context_manager", example_context_manager) examples)
    by (simpl; tauto).
  split; [exact Hin | split; [reflexivity | ]].
  apply (reads_only_after_navigation _ _ Hin env_ok
           (firstn 5 (trace_of example_context_manager env_ok))
           (Did (DriverAttr (VObj 1) "title") (Returned (VStr "Example Domain")))
           (skipn 6 (trace_of example_context_manager env_ok))
           "title");
    [reflexivity | reflexivity | discriminate | discriminate].
Defined.

(** X3.  In the examples that release with [quit()] in a [finally] suite
    (all but the [with] example): if [quit()] raises, the function ends with
    the exception of [quit()], whatever the body did before, so an earlier
    failure of the body is masked; and the function returns normally only
    if no library call raised at all. *)
Theorem quit_failure_masks_body :
  forall (name : string) (p : prog unit),
    In (name, p) examples ->
    name <> "example_context_manager" ->
    forall E : env,
      (forall e, quit_raised (trace_of p E) = [e] -> result_of p E = Exc e) /\
      (result_of p E = Ok tt -> raised_calls (trace_of p E) = []).
Proof.
  intros name p Hin Hname E.
  destruct (examples_paths name p E Hin) as [_ [_ Hquit]].
  exact (Hquit Hname).
Qed.

(** A browser whose page does not load and whose [quit()] fails too. *)
Definition env_quit_fails : env := fun h c =>
  match c with
  | DriverCall _ "quit" _ =>
      Raised (mk_exn (ExceptionSubclass "WebDriverException") "chrome not reachable")
  | _ => env_offline h c
  end.

Lemma quit_failure_masks_body_witness :
  In ("example_basic_usage", example_basic_usage) examples /\
  "example_basic_usage" <> "example_context_manager" /\
  raised_calls (trace_of example_basic_usage env_quit_fails) =
    [ (DriverCall (VObj 1) "get" [VStr "https://example.com"],
       mk_exn (ExceptionSubclass "WebDriverException") "net::ERR_NAME_NOT_RESOLVED");
      (DriverCall (VObj 1) "quit" [],
       mk_exn (ExceptionSubclass "WebDriverException") "chrome not reachable") ] /\
  result_of example_basic_usage env_quit_fails =
    Exc (mk_exn (ExceptionSubclass "WebDriverException") "chrome not reachable").
Proof.
  assert (Hin : In ("example_basic_usage", example_basic_usage) examples)
    by (simpl; tauto).
  assert (Hname : "example_basic_usage" <> "example_context_manager") by discriminate.
  split; [exact Hin | split; [exact Hname | split; [reflexivity | ]]].
  apply (proj1 (quit_failure_masks_body _ _ Hin Hname env_quit_fails)).
  reflexivity.
Defined.

(** ** The [with] example *)

(** The [__exit__] calls: the pending exception handed over and the outcome. *)
Definition exit_calls (t : trace) : list (option exn * outcome) :=
  pick (fun ev => match ev with
                  | Did (DriverExit _ exc) r => Some (exc, r)
                  | _ => None
                  end) t.

(** The exceptions raised by driver members, that is, inside the block. *)
Definition block_raised (t : trace) : list exn :=
  pick (fun ev => match ev with
                  | Did (DriverCall _ _ _) (Raised e) => Some e
                  | Did (DriverAttr _ _) (Raised e) => Some e
                  | _ => None
                  end) t.

(** What the [with] statement makes of the block's end and of the outcome
    of [__exit__]. *)
Definition with_result (exc : option exn) (r : outcome) : result unit :=
  match r, exc with
  | Raised e', _ => Exc e'
  | Returned _, None => Ok tt
  | Returned v, Some e => if truthy v then Ok tt else Exc e
  end.

Definition exit_sees_block_end (r : result unit) (t : trace) : Prop :=
  forall exc out,
    exit_calls t = [(exc, out)] ->
    block_raised t = match exc with Some e => [e] | None => [] end /\
    r = with_result exc out.

(** X4.  In [example_context_manager], when [__exit__] is called it is
    handed exactly the way the block ended: no exception if navigation and
    title read returned, else the exception that the failing driver call
    raised.  The function then ends as [__exit__] decides: with the
    exception of [__exit__] if it raises; normally if the block ended
    normally or [__exit__] returns a true value (the failure is swallowed);
    with the block's exception otherwise. *)
Theorem with_exit_sees_block_end :
  forall (E : env) (exc : option exn) (out : outcome),
    exit_calls (trace_of example_context_manager E) = [(exc, out)] ->
    block_raised (trace_of example_context_manager E) =
      match exc with Some e => [e] | None => [] end /\
    result_of example_context_manager E = with_result exc out.
Proof.
  intros E. unfold trace_of, result_of.
  apply (always_sound exit_sees_block_end).
  autounfold with script; cbn.
  repeat (first [ intros [?v | ?e]
                | match goal with
                  | |- context [truthy ?v] => destruct (truthy v) eqn:?
                  end ]; cbn);
    unfold exit_sees_block_end; cbn; intros ? ? [= <- <-];
    split; cbn;
    repeat match goal with
           | H : truthy _ = _ |- _ => rewrite H
           end;
    reflexivity.
Qed.

(** A browser whose page does not load and whose [__exit__] returns [True]. *)
Definition env_swallow : env := fun h c =>
  match c with
  | DriverExit _ _ => Returned (VBool true)
  | _ => env_offline h c
  end.

Lemma with_exit_sees_block_end_witness :
  exit_calls (trace_of example_context_manager env_swallow) =
    [ (Some (mk_exn (ExceptionSubclass "WebDriverException") "net::ERR_NAME_NOT_RESOLVED"),
       Returned (VBool true)) ] /\
  result_of example_context_manager env_swallow = Ok tt.
Proof.
  split; [reflexivity | ].
  apply (with_exit_sees_block_end env_swallow
           (Some (mk_exn (ExceptionSubclass "WebDriverException") "net::ERR_NAME_NOT_RESOLVED"))
           (Returned (VBool true))).
  reflexivity.
Defined.

(** ** Results of an unexpected type *)

(** A value of a builtin type that has neither [get] nor attributes of its
    own: none, a boolean, an integer, a string or a list. *)
Definition plain (v : value) : bool :=
  match v with
  | VDict _ => false
  | VObj _ => false
  | _ => true
  end.

Definition no_get (v : value) : exn :=
  AttributeError ("'" ++ type_name v ++ "' object has no attribute 'get'").

Definition headers_must_be_mapping (r : result unit) (t : trace) : Prop :=
  forall v,
    headers_returned t = [v] ->
    plain v = true ->
    printed t = [[Lit (nl ++ "=== Example 2: Extract Headers ===")]] /\
    released t = sessions t /\
    (quit_raised t = [] -> r = Exc (no_get v)).

(** X5.  In [example_with_headers], if [get_headers()] returns a value that
    is neither a dict nor an object with a [get] of its own (none, a
    boolean, a number, a string, a list), the first lookup raises
    [AttributeError]: no header line is printed, the session is still
    released, and unless [quit()] fails too the function ends with that
    [AttributeError]. *)
Theorem non_mapping_headers_raise :
  forall (E : env) (v : value),
    headers_returned (trace_of example_with_headers E) = [v] ->
    plain v = true ->
    printed (trace_of example_with_headers E) =
      [[Lit (nl ++ "=== Example 2: Extract Headers ===")]] /\
    released (trace_of example_with_headers E) =
      sessions (trace_of example_with_headers E) /\
    (quit_raised (trace_of example_with_headers E) = [] ->
     result_of example_with_headers E = Exc (no_get v)).
Proof.
  intros E. unfold trace_of, result_of.
  apply (always_sound headers_must_be_mapping).
  explore_values; unfold headers_must_be_mapping; cbn;
    intros ? [= <-] ?; try discriminate;
    repeat split; intros; try discriminate; reflexivity.
Qed.

(** A browser whose [get_headers()] returns nothing. *)
Definition env_headers_none : env := fun h c =>
  match c with
  | DriverCall _ "get_headers" _ => Returned VNone
  | _ => env_ok h c
  end.

Lemma non_mapping_headers_raise_witness :
  headers_returned (trace_of example_with_headers env_headers_none) = [VNone] /\
  plain VNone = true /\
  quit_raised (trace_of example_with_headers env_headers_none) = [] /\
  result_of example_with_headers env_headers_none =
    Exc (AttributeError "'NoneType' object has no attribute 'get'").
Proof.
  split; [reflexivity | split; [reflexivity | split; [reflexivity | ]]].
  apply (non_mapping_headers_raise env_headers_none VNone); reflexivity.
Defined.

(** What [find_element(...)] returned. *)
Definition element_returned (t : trace) : list value :=
  pick (fun ev => match ev with
                  | Did (DriverCall _ "find_element" _) (Returned v) => Some v
                  | _ => None
                  end) t.

Definition is_object (v : value) : bool :=
  match v with
  | VObj _ => true
  | _ => false
  end.

Definition shows_element (line : list fpart) : bool :=
  match line with
  | Lit "Found element: " :: _ => true
  | _ => false
  end.

Definition no_text (v : value) : exn :=
  AttributeError ("'" ++ type_name v ++ "' object has no attribute 'text'").

Definition element_must_be_object (r : result unit) (t : trace) : Prop :=
  forall v,
    element_returned t = [v] ->
    is_object v = false ->
    existsb shows_element (printed t) = false /\
    released t = sessions t /\
    (quit_raised t = [] -> r = Exc (no_text v)).

(** X6.  In [example_basic_usage], if [find_element(...)] returns anything
    but an object (none, say), reading [element.text] raises
    [AttributeError]: the line [Found element: ...] is not printed, the
    session is still released, and unless [quit()] fails too the function
    ends with that [AttributeError]. *)
Theorem non_object_element_raises :
  forall (E : env) (v : value),
    element_returned (trace_of example_basic_usage E) = [v] ->
    is_object v = false ->
    existsb shows_element (printed (trace_of example_basic_usage E)) = false /\
    released (trace_of example_basic_usage E) =
      sessions (trace_of example_basic_usage E) /\
    (quit_raised (trace_of example_basic_usage E) = [] ->
     result_of example_basic_usage E = Exc (no_text v)).
Proof.
  intros E. unfold trace_of, result_of.
  apply (always_sound element_must_be_object).
  autounfold with script; unfold py_getattr; cbn.
  repeat (value_step; cbn);
    unfold element_must_be_object; cbn;
    intros ? [= <-] ?; try discriminate;
    repeat split; intros; try discriminate; reflexivity.
Qed.

(** A browser whose [find_element] returns nothing. *)
Definition env_element_none : env := fun h c =>
  match c with
  | DriverCall _ "find_element" _ => Returned VNone
  | _ => env_ok h c
  end.

Lemma non_object_element_raises_witness :
  element_returned (trace_of example_basic_usage env_element_none) = [VNone] /\
  is_object VNone = false /\
  quit_raised (trace_of example_basic_usage env_element_none) = [] /\
  result_of example_basic_usage env_element_none =
    Exc (AttributeError "'NoneType' object has no attribute 'text'").
Proof.
  split; [reflexivity | split; [reflexivity | split; [reflexivity | ]]].
  apply (non_object_element_raises env_element_none VNone); reflexivity.
Defined.

(** ** The custom options example *)

(** What [get_window_size()] returned. *)
Definition window_size_returned (t : trace) : list value :=
  pick (fun ev => match ev with
                  | Did (DriverCall _ "get_window_size" []) (Returned v) => Some v
                  | _ => None
                  end) t.

Definition custom_heading : list fpart := [Lit (nl ++ "=== Example 6: Custom Options ===")].

Definition window_size_read (r : result unit) (t : trace) : Prop :=
  forall items,
    window_size_returned t = [VDict items] ->
    match dict_lookup "width" items, dict_lookup "height" items with
    | Some w, Some h =>
        printed t = [custom_heading; [Lit "Window Size: "; Interp w; Lit "x"; Interp h]] /\
        sleeps t = [60%Z]
    | None, _ =>
        printed t = [custom_heading] /\ sleeps t = [] /\
        released t = sessions t /\
        (quit_raised t = [] -> r = Exc (KeyError "'width'"))
    | Some _, None =>
        printed t = [custom_heading] /\ sleeps t = [] /\
        released t = sessions t /\
        (quit_raised t = [] -> r = Exc (KeyError "'height'"))
    end.

Ltac explore_items :=
  autounfold with script; unfold py_getitem; cbn;
  repeat (value_step; autounfold with script; cbn).

(** X7.  In [example_custom_options], when [get_window_size()] returns a
    dict: if it holds both ['width'] and ['height'], the line
    [Window Size: <width>x<height>] is printed with the two values found
    and the function then sleeps 60 seconds; if ['width'] is missing, or
    ['height'] is, nothing more is printed, the function does not sleep,
    the session is still released, and unless [quit()] fails too the
    function ends with [KeyError] on the first missing key. *)
Theorem window_size_needs_both_keys :
  forall (E : env) (items : list (string * value)),
    window_size_returned (trace_of example_custom_options E) = [VDict items] ->
    match dict_lookup "width" items, dict_lookup "height" items with
    | Some w, Some h =>
        printed (trace_of example_custom_options E) =
          [custom_heading; [Lit "Window Size: "; Interp w; Lit "x"; Interp h]] /\
        sleeps (trace_of example_custom_options E) = [60%Z]
    | None, _ =>
        printed (trace_of example_custom_options E) = [custom_heading] /\
        sleeps (trace_of example_custom_options E) = [] /\
        released (trace_of example_custom_options E) =
          sessions (trace_of example_custom_options E) /\
        (quit_raised (trace_of example_custom_options E) = [] ->
         result_of example_custom_options E = Exc (KeyError "'width'"))
    | Some _, None =>
        printed (trace_of example_custom_options E) = [custom_heading] /\
        sleeps (trace_of example_custom_options E) = [] /\
        released (trace_of example_custom_options E) =
          sessions (trace_of example_custom_options E) /\
        (quit_raised (trace_of example_custom_options E) = [] ->
         result_of example_custom_options E = Exc (KeyError "'height'"))
    end.
Proof.
  intros E. unfold trace_of, result_of.
  apply (always_sound window_size_read).
  explore_items; unfold window_size_read; cbn;
    intros ? [= <-];
    repeat match goal with
           | H : dict_lookup _ _ = _ |- _ => rewrite H
           end;
    repeat split; intros; try discriminate; reflexivity.
Qed.

(** A browser whose window size lacks the height. *)
Definition env_no_height : env := fun h c =>
  match c with
  | DriverCall _ "get_window_size" _ => Returned (VDict [("width", VInt 1920)])
  | _ => env_ok h c
  end.

Lemma window_size_needs_both_keys_witness :
  window_size_returned (trace_of example_custom_options env_no_height) =
    [VDict [("width", VInt 1920)]] /\
  sleeps (trace_of example_custom_options env_no_height) = [] /\
  result_of example_custom_options env_no_height = Exc (KeyError "'height'").
Proof.
  split; [reflexivity | ].
  pose proof (window_size_needs_both_keys env_no_height [("width", VInt 1920)] eq_refl) as H.
  simpl in H. destruct H as [_ [Hsleep [_ Hres]]].
  split; [exact Hsleep | exact (Hres eq_refl)].
Defined.

(** The objects on which [add_argument(arg)] returned, with [arg]. *)
Definition arguments_added (t : trace) : list (value * value) :=
  pick (fun ev => match ev with
                  | Did (ObjCall o "add_argument" [arg]) (Returned _) => Some (o, arg)
                  | _ => None
                  end) t.

(** What [Options()] returned. *)
Definition options_created (t : trace) : list value :=
  pick (fun ev => match ev with
                  | Did NewOptions (Returned o) => Some o
                  | _ => None
                  end) t.

Definition built_from_configured_options : trace -> event -> trace -> Prop :=
  fun before ev _ =>
    match ev with
    | Did (NewDriver kwargs) _ =>
        exists o,
          kwargs = [("options", o); ("headless", VBool false); ("incognito", VBool true)] /\
          options_created before = [o] /\
          arguments_added before = [(o, VStr "--window-size=1920,1080")]
    | Did (Sleep _) _ =>
        exists w h, In [Lit "Window Size: "; Interp w; Lit "x"; Interp h] (printed before)
    | _ => True
    end.

Lemma custom_options_order (E : env) :
  at_each built_from_configured_options [] (trace_of example_custom_options E).
Proof.
  unfold trace_of.
  apply (always_sound (fun _ t => at_each built_from_configured_options [] t)).
  explore; cbn; repeat split;
    try (eexists; repeat split; reflexivity);
    try (do 2 eexists; cbn; right; left; reflexivity).
Qed.



(** X9.  In [example_custom_options] the 60 second pause is taken only
    after the window size has been read and its line printed: a run that
    fails before that point never sleeps. *)
Theorem sleeps_only_after_size_printed :
  forall (E : env) (t1 : trace) (secs : Z) (r : outcome) (t2 : trace),
    trace_of example_custom_options E = (t1 ++ Did (Sleep secs) r :: t2)%list ->
    exists w h, In [Lit "Window Size: "; Interp w; Lit "x"; Interp h] (printed t1).
Proof.
  intros E t1 secs r t2 Ht.
  exact (at_each_split built_from_configured_options _ (custom_options_order E) t1 _ t2 Ht).
Qed.

Lemma sleeps_only_after_size_printed_witness :
  trace_of example_custom_options env_ok =
    (firstn 9 (trace_of example_custom_options env_ok) ++
     Did (Sleep 60) (Returned VNone)
     :: skipn 10 (trace_of example_custom_options env_ok))%list /\
  exists w h,
    In [Lit "Window Size: "; Interp w; Lit "x"; Interp h]
       (printed (firstn 9 (trace_of example_custom_options env_ok))).
Proof.
  split; [reflexivity | ].
  apply (sleeps_only_after_size_printed env_ok
           (firstn 9 (trace_of example_custom_options env_ok)) 60%Z
           (Returned VNone)
           (skipn 10 (trace_of example_custom_options env_ok))).
  reflexivity.
Defined.

(** ** The [__main__] block as a whole *)

Definition completed_line : list fpart := [Lit (nl ++ "✅ All examples completed!")].

Definition error_line (e : exn) : list fpart :=
  [Lit (nl ++ "❌ Error: "); Interp (VStr (exn_message e))].

(** The last library call that raised, if any. *)
Definition last_raised (t : trace) : option (op * exn) := hd_error (rev (raised_calls t)).

Definition honest_ending (r : result unit) (t : trace) : Prop :=
  (In completed_line (printed t) <-> r = Ok tt /\ caught t = []) /\
  (In completed_line (printed t) -> raised_calls t = []) /\
  (forall c e,
     last_raised t = Some (c, e) ->
     if is_Exception e
     then r = Ok tt /\ caught t = [e] /\ In (error_line e) (printed t)
     else r = Exc e /\ caught t = []).

Ltac close_ending_leaf :=
  unfold honest_ending; cbn;
  repeat match goal with
         | |- _ /\ _ => split
         | |- _ <-> _ => split
         end;
  intros;
  repeat match goal with
         | H : _ /\ _ |- _ => destruct H
         | H : Some _ = Some _ |- _ => injection H as <- <-
         end;
  try discriminate;
  repeat match goal with
         | H : is_Exception _ = _ |- _ => rewrite H
         end;
  try (repeat split; try reflexivity; cbn; tauto);
  try (exfalso;
       match goal with
       | H : _ \/ _ |- _ => cbn in H; intuition discriminate
       end).

Lemma main_block_honest_ending (E : env) :
  honest_ending (fst (run main_block E [])) (snd (run main_block E [])).
Proof.
  apply (always_sound honest_ending).
  explore; close_ending_leaf.
Qed.

(** X10.  Run as [__main__], the script prints [All examples completed!]
    exactly when it ends normally without the handler having caught
    anything, and in that case no library call raised during the run: the
    success line is never printed after a failure. *)
Theorem success_line_only_on_success :
  forall E : env,
    (In completed_line (printed (trace_of (script "__main__") E)) <->
     result_of (script "__main__") E = Ok tt /\
     caught (trace_of (script "__main__") E) = []) /\
    (In completed_line (printed (trace_of (script "__main__") E)) ->
     raised_calls (trace_of (script "__main__") E) = []).
Proof.
  intros E.
  destruct (main_block_honest_ending E) as [Hiff [Hnone _]].
  split; [exact Hiff | exact Hnone].
Qed.

Lemma success_line_only_on_success_witness :
  In completed_line (printed (trace_of (script "__main__") env_ok)) /\
  raised_calls (trace_of (script "__main__") env_ok) = [].
Proof.
  assert (H : In completed_line (printed (trace_of (script "__main__") env_ok)))
    by (cbn; tauto).
  split; [exact H | ].
  exact (proj2 (success_line_only_on_success env_ok) H).
Defined.





(** ** Counts shown by the compatibility example *)

(** [len] on a list is its number of items; nothing else is a list. *)
Lemma py_len_list_cases (v : value) :
  (exists n, py_len v = Ret (VInt n) /\
             forall xs, v = VList xs -> n = Z.of_nat (List.length xs)) \/
  (exists e, py_len v = Raise e /\ forall xs, v <> VList xs) \/
  (py_len v = (n <- call (ObjCall v "__len__" []) ;; as_len n) /\
   forall xs, v <> VList xs).
Proof.
  destruct v; simpl;
    try (left; eexists; split; [reflexivity | intros; congruence]);
    try (right; left; eexists; split; [reflexivity | intros; discriminate]).
  right; right. split; [reflexivity | intros; discriminate].
Qed.

(** What [find_elements(...)] and [get_cookies()] returned. *)
Definition elements_returned (t : trace) : list value :=
  pick (fun ev => match ev with
                  | Did (DriverCall _ "find_elements" _) (Returned v) => Some v
                  | _ => None
                  end) t.

Definition cookies_returned (t : trace) : list value :=
  pick (fun ev => match ev with
                  | Did (DriverCall _ "get_cookies" []) (Returned v) => Some v
                  | _ => None
                  end) t.

(** The scripts passed to [execute_script]. *)
Definition scripts_run (t : trace) : list (list value) :=
  pick (fun ev => match ev with
                  | Did (DriverCall _ "execute_script" args) _ => Some args
                  | _ => None
                  end) t.

Definition count_of (xs : list value) : value := VInt (Z.of_nat (List.length xs)).

Definition counts_shown (t : trace) : Prop :=
  (forall xs,
     elements_returned t = [VList xs] ->
     In [Lit "Found "; Interp (count_of xs); Lit " paragraph elements"] (printed t) /\
     scripts_run t = [[VStr "return document.title;"]]) /\
  (forall cs,
     cookies_returned t = [VList cs] ->
     In [Lit "Cookies: "; Interp (count_of cs); Lit " found"] (printed t)).

Ltac list_step :=
  match goal with
  | |- forall r : outcome, _ => intros [?v | ?e]
  | |- context [py_len ?v] =>
      let Hn := fresh "Hlen" in
      destruct (py_len_list_cases v) as [[? [-> Hn]] | [[? [-> Hn]] | [-> Hn]]]
  | |- context [as_len ?v] =>
      destruct (as_len_cases v) as [[? ->] | [? ->]]
  end.

Ltac close_count_leaf :=
  unfold counts_shown, count_of; cbn; split; intros ? Hret;
  try discriminate Hret;
  injection Hret as ->;
  repeat match goal with
         | H : forall xs, VList ?l = VList xs -> _ |- _ =>
             specialize (H l eq_refl)
         | H : forall xs, VList ?l <> VList xs |- _ =>
             elim (H l eq_refl)
         end;
  subst; cbn; repeat split; tauto.

(** X13.  In [example_selenium_compatibility], when [find_elements(...)]
    returns a list, the line [Found <n> paragraph elements] is printed with
    [n] the number of items of that list, and the function goes on to run
    the script [return document.title;]; when [get_cookies()] returns a
    list, the line [Cookies: <n> found] is printed with [n] its number of
    items.  An empty list is shown as a count of zero, not treated as an
    error. *)
Theorem counts_are_list_lengths :
  forall E : env,
    (forall xs,
       elements_returned (trace_of example_selenium_compatibility E) = [VList xs] ->
       In [Lit "Found "; Interp (count_of xs); Lit " paragraph elements"]
          (printed (trace_of example_selenium_compatibility E)) /\
       scripts_run (trace_of example_selenium_compatibility E) =
         [[VStr "return document.title;"]]) /\
    (forall cs,
       cookies_returned (trace_of example_selenium_compatibility E) = [VList cs] ->
       In [Lit "Cookies: "; Interp (count_of cs); Lit " found"]
          (printed (trace_of example_selenium_compatibility E))).
Proof.
  intros E. unfold trace_of.
  apply (always_sound (fun _ => counts_shown)).
  autounfold with script; cbn;
    repeat (list_step; autounfold with script; cbn);
    close_count_leaf.
Qed.

(** A browser whose page has no paragraph. *)
Definition env_no_paragraph : env := fun h c =>
  match c with
  | DriverCall _ "find_elements" _ => Returned (VList [])
  | _ => env_ok h c
  end.

Lemma counts_are_list_lengths_witness :
  elements_returned (trace_of example_selenium_compatibility env_no_paragraph) = [VList []] /\
  In [Lit "Found "; Interp (VInt 0); Lit " paragraph elements"]
     (printed (trace_of example_selenium_compatibility env_no_paragraph)).
Proof.
  split; [reflexivity | ].
  exact (proj1 (proj1 (counts_are_list_lengths env_no_paragraph) [] eq_refl)).
Defined.

(** ** What [with ... as driver] binds *)

(** The receivers of the method calls and property reads on a driver. *)
Definition member_receivers (t : trace) : list value :=
  pick (fun ev => match ev with
                  | Did (DriverCall d _ _) _ => Some d
                  | Did (DriverAttr d _) _ => Some d
                  | _ => None
                  end) t.

Definition entered_value (t : trace) : list value :=
  pick (fun ev => match ev with
                  | Did (DriverEnter _) (Returned x) => Some x
                  | _ => None
                  end) t.

Definition exit_receivers (t : trace) : list value :=
  pick (fun ev => match ev with
                  | Did (DriverExit d _) _ => Some d
                  | _ => None
                  end) t.

Definition binds_enter_result (t : trace) : Prop :=
  (forall d, In d (member_receivers t) -> entered_value t = [d]) /\
  (forall d, In d (exit_receivers t) -> sessions t = [d]) /\
  (entered_value t <> [] -> exists d, exit_receivers t = [d]).

(** X14.  In [example_context_manager], the name [driver] stands for what
    [__enter__] returned: [get] and [title] are directed at that value,
    while [__exit__] is called on the object the constructor returned,
    exactly once as soon as [__enter__] has returned. *)
Theorem with_binds_enter_result :
  forall E : env,
    (forall d, In d (member_receivers (trace_of example_context_manager E)) ->
               entered_value (trace_of example_context_manager E) = [d]) /\
    (forall d, In d (exit_receivers (trace_of example_context_manager E)) ->
               sessions (trace_of example_context_manager E) = [d]) /\
    (entered_value (trace_of example_context_manager E) <> [] ->
     exists d, exit_receivers (trace_of example_context_manager E) = [d]).
Proof.
  intros E. unfold trace_of.
  apply (always_sound (fun _ => binds_enter_result)).
  explore; unfold binds_enter_result; cbn;
    repeat split; intros;
    repeat match goal with
           | H : _ \/ _ |- _ => destruct H
           | H : False |- _ => contradiction
           end;
    subst; try reflexivity; try congruence; eauto.
Qed.

(** A browser whose [__enter__] hands out another object than the one
    constructed. *)
Definition env_proxy_object : env := fun h c =>
  match c with
  | DriverEnter _ => Returned (VObj 7)
  | _ => env_ok h c
  end.

Lemma with_binds_enter_result_witness :
  In (VObj 7) (member_receivers (trace_of example_context_manager env_proxy_object)) /\
  entered_value (trace_of example_context_manager env_proxy_object) = [VObj 7] /\
  exit_receivers (trace_of example_context_manager env_proxy_object) = [VObj 1].
Proof.
  assert (H : In (VObj 7) (member_receivers (trace_of example_context_manager env_proxy_object)))
    by (cbn; tauto).
  split; [exact H | split; [ | reflexivity]].
  exact (proj1 (with_binds_enter_result env_proxy_object) (VObj 7) H).
Defined.
